(** * week1/claude_solution.py: the website summarizer, embedded and verified

    The script fetches a page, builds a two-message prompt, asks a local
    chat-completion endpoint for a summary and prints it.  Everything it does
    is an effect on the outside world, so the embedding is a small
    state-and-exception monad:

    - the module globals (lines 22-38) live in the state, because a Python
      function looks a global up each time it runs;
    - the two imported collaborators ([openai.OpenAI] and
      [scraper.fetch_website_contents]) are an interface, [Externals], over
      an abstract state of the outside world;
    - everything observable (each [print], each call made to a collaborator)
      is appended to a trace. *)

From Stdlib Require Import String Ascii List Bool Arith ZArith Lia.
Import ListNotations.
Open Scope string_scope.

(** ** Python values used by the script *)

(** A raised exception: its class name, whether the class derives from
    [Exception] (what [except Exception] tests), and [str(e)]. *)
Record PyExc := mkExc {
  exc_type : string;
  is_Exception : bool;
  exc_str : string
}.

(** [[][0]] *)
Definition IndexError : PyExc :=
  mkExc "IndexError" true "list index out of range".

(** One entry of the [messages] list: a dict with the keys "role" and
    "content". *)
Record Message := mkMessage {
  role : string;
  content : string
}.

(** The part of the chat-completion response the script reads:
    [response.choices[0].message.content]. *)
Module Response.
Record ChatCompletionMessage := mkMsg { content : option string }.
Record Choice := mkChoice { message : ChatCompletionMessage }.
Record ChatCompletion := mkCompletion { choices : list Choice }.
End Response.

(** [str(x)] for a value that is a [str] or [None], as [print] and an
    f-string render it. *)
Definition py_str (x : option string) : string :=
  match x with
  | Some s => s
  | None => "None"
  end.

Definition nl : string := String (ascii_of_nat 10) EmptyString.

(** [s * n] *)
Fixpoint str_repeat (s : string) (n : nat) : string :=
  match n with
  | O => EmptyString
  | S n' => s ++ str_repeat s n'
  end.

(** [l[i]] on a list: IndexError when [i] is out of range. *)
Definition py_index {A} (l : list A) (i : nat) : PyExc + A :=
  match nth_error l i with
  | Some x => inr x
  | None => inl IndexError
  end.

(** ** Module globals (lines 22-38) *)

Record Globals := mkGlobals {
  OLLAMA_BASE_URL : string;
  MODEL : string;
  SYSTEM_PROMPT : string;
  USER_PROMPT_PREFIX : string
}.

(** The values the module body assigns when it is loaded. *)
Definition module_globals : Globals := {|
  OLLAMA_BASE_URL := "http://localhost:11434/v1";
  MODEL := "llama3.2";
  SYSTEM_PROMPT :=
    nl ++
    "You are a snarky assistant that analyzes the contents of a website," ++ nl ++
    "and provides a short, snarky, humorous summary, ignoring text that might be navigation related." ++ nl ++
    "Respond in markdown. Do not wrap the markdown in a code block - respond just with the markdown." ++ nl;
  USER_PROMPT_PREFIX :=
    nl ++
    "Here are the contents of a website." ++ nl ++
    "Provide a short summary of this website." ++ nl ++
    "If it includes news or announcements, then summarize these too." ++ nl ++
    nl
|}.

(** ** Outcomes of a Python call *)

(** A call returns a value, raises an exception, or raises [SystemExit]
    (which is not an [Exception], so no handler of the script catches it). *)
Inductive Outcome (A : Type) : Type :=
| Return (a : A)
| Raise (e : PyExc)
| Exit (code : Z).

Arguments Return {A} a.
Arguments Raise {A} e.
Arguments Exit {A} code.

(** Sequencing on outcomes alone: a failure of the first step is the
    failure of the whole. *)
Definition and_then {A B} (r : Outcome A) (k : A -> Outcome B) : Outcome B :=
  match r with
  | Return a => k a
  | Raise e => Raise e
  | Exit code => Exit code
  end.

(** The status the interpreter ends the process with: 0 when [main]
    returns, the code given to [sys.exit] (the script only passes 1), 1
    after the traceback of an exception nobody caught.  CPython ends an
    uncaught KeyboardInterrupt by the signal instead, and the system keeps
    the low byte of a code only: the statements below use this function on
    [Return] and on [Exit 1] alone. *)
Definition exit_status (r : Outcome unit) : Z :=
  match r with
  | Return _ => 0
  | Exit code => code
  | Raise _ => 1
  end%Z.

(** Does the surrounding [for] loop go on after a [try ... except Exception]
    around a call with this outcome? *)
Definition recovered {A} (r : Outcome A) : bool :=
  match r with
  | Return _ => true
  | Raise e => is_Exception e
  | Exit _ => false
  end.

(** ** The imported collaborators *)

(** [from openai import OpenAI] and [from scraper import
    fetch_website_contents]: what they do is not this script's business, so
    each is a transition on an abstract [World] that ends in an [Outcome]. *)
Class Externals := {
  World : Type;
  Client : Type;
  (** [OpenAI(base_url=..., api_key=...)] *)
  OpenAI : string -> string -> World -> Outcome Client * World;
  (** [fetch_website_contents(url)] *)
  fetch_website_contents : string -> World -> Outcome string * World;
  (** [client.chat.completions.create(model=..., messages=...)] *)
  chat_completions_create :
    Client -> string -> list Message -> World ->
    Outcome Response.ChatCompletion * World
}.

Section Program.

Context {X : Externals}.

(** What an observer of the process sees, in order. [EvPrint x] is
    [print(x)]: the text [x] followed by a newline on standard output. *)
Inductive Event : Type :=
| EvPrint (text : string)
| EvOpenAI (base_url api_key : string)
| EvFetch (url : string)
| EvCreate (client : Client) (model : string) (messages : list Message).

Record State := mkState {
  globals : Globals;
  world : World;
  trace : list Event
}.

(** The interpreter right after the module body has run. *)
Definition startup (w : World) : State :=
  mkState module_globals w [].

Definition M (A : Type) : Type := State -> Outcome A * State.

Definition ret {A} (a : A) : M A := fun s => (Return a, s).

Definition bind {A B} (m : M A) (k : A -> M B) : M B :=
  fun s =>
    match m s with
    | (Return a, s1) => k a s1
    | (Raise e, s1) => (Raise e, s1)
    | (Exit code, s1) => (Exit code, s1)
    end.

(** [raise e] *)
Definition raise {A} (e : PyExc) : M A := fun s => (Raise e, s).

(** [sys.exit(code)] *)
Definition sys_exit {A} (code : Z) : M A := fun s => (Exit code, s).

(** [try: body / except Exception as e: handler] *)
Definition try_except {A} (body : M A) (handler : PyExc -> M A) : M A :=
  fun s =>
    match body s with
    | (Raise e, s1) =>
        if is_Exception e then handler e s1 else (Raise e, s1)
    | r => r
    end.

Definition emit (ev : Event) (s : State) : State :=
  mkState (globals s) (world s) (trace s ++ [ev]).

(** [print(text)] *)
Definition print (text : string) : M unit :=
  fun s => (Return tt, emit (EvPrint text) s).

(** Reading a module global by name. *)
Definition global {A} (name : Globals -> A) : M A :=
  fun s => (Return (name (globals s)), s).

(** A call to a collaborator: it is recorded, then the collaborator moves
    the outside world and decides the outcome. *)
Definition call {A} (ev : Event) (f : World -> Outcome A * World) : M A :=
  fun s =>
    let s1 := emit ev s in
    let (r, w) := f (world s1) in
    (r, mkState (globals s1) w (trace s1)).

(** Lifting of a pure operation that may raise. *)
Definition lift {A} (r : PyExc + A) : M A :=
  match r with
  | inr a => ret a
  | inl e => raise e
  end.

End Program.

Declare Scope py_scope.
Delimit Scope py_scope with py.
Notation "x <- m ;; k" := (bind m (fun x => k))
  (at level 61, m at next level, right associativity) : py_scope.
Notation "m ;; k" := (bind m (fun _ => k))
  (at level 61, right associativity) : py_scope.
Open Scope py_scope.

Section Script.

Context {X : Externals}.

(** [for x in l: body(x)] *)
Fixpoint for_each {A} (l : list A) (body : A -> M unit) : M unit :=
  match l with
  | [] => ret tt
  | x :: rest => body x ;; for_each rest body
  end.

(** Lines 41-51. *)
Definition create_ollama_client : M Client :=
  base_url <- global OLLAMA_BASE_URL ;;
  call (EvOpenAI base_url "ollama") (OpenAI base_url "ollama").

(** Lines 54-67. *)
Definition create_messages (website_content : string) : M (list Message) :=
  system_prompt <- global SYSTEM_PROMPT ;;
  user_prompt_prefix <- global USER_PROMPT_PREFIX ;;
  ret [ mkMessage "system" system_prompt;
        mkMessage "user" (user_prompt_prefix ++ website_content) ].

(** Lines 70-92. *)
Definition summarize_website (url : string) (client : Client)
  : M (option string) :=
  print ("Fetching website content from: " ++ url) ;;
  website_content <- call (EvFetch url) (fetch_website_contents url) ;;
  model <- global MODEL ;;
  print ("Generating summary using " ++ model ++ "...") ;;
  messages <- create_messages website_content ;;
  model <- global MODEL ;;
  response <- call (EvCreate client model messages)
                   (chat_completions_create client model messages) ;;
  choice <- lift (py_index (Response.choices response) 0) ;;
  ret (Response.content (Response.message choice)).

(** Lines 100-104. *)
Definition default_urls : list string :=
  [ "https://edwarddonner.com";
    "https://anthropic.com";
    "https://cnn.com" ].

(** Lines 106-112 of [main]: which URLs to summarize, from [sys.argv]. *)
Definition resolve_urls (argv : list string) : M (list string) :=
  if Nat.ltb 1 (List.length argv) then
    url <- lift (py_index argv 1) ;;
    ret [url]
  else
    print ("No URL provided. Summarizing default websites..." ++ nl) ;;
    ret default_urls.

(** Lines 114-125 of [main]. *)
Definition connect : M Client :=
  try_except
    (client <- create_ollama_client ;;
     base_url <- global OLLAMA_BASE_URL ;;
     print ("✓ Connected to Ollama at " ++ base_url) ;;
     model <- global MODEL ;;
     print ("✓ Using model: " ++ model ++ nl) ;;
     ret client)
    (fun e =>
       print ("✗ Error connecting to Ollama: " ++ exc_str e) ;;
       print (nl ++ "Make sure Ollama is running:") ;;
       print "  1. Visit http://localhost:11434 to check if Ollama is running" ;;
       print "  2. If not, run 'ollama serve' in a terminal" ;;
       model <- global MODEL ;;
       print ("  3. Pull the model with 'ollama pull " ++ model ++ "'") ;;
       sys_exit 1%Z).

(** Lines 129-136 of [main]: the body of the loop. *)
Definition summarize_one (client : Client) (url : string) : M unit :=
  print (str_repeat "=" 70) ;;
  try_except
    (summary <- summarize_website url client ;;
     print (nl ++ "📄 Summary of " ++ url ++ ":" ++ nl) ;;
     print (py_str summary) ;;
     print "")
    (fun e =>
       print ("✗ Error summarizing " ++ url ++ ": " ++ exc_str e ++ nl)).

(** Lines 138-146 of [main]. *)
Definition closing : M unit :=
  print (str_repeat "=" 70) ;;
  print (nl ++ "✓ Done!") ;;
  print (nl ++ "Benefits of using Ollama:") ;;
  print "  • No API charges - completely free" ;;
  print "  • Data stays on your machine - privacy" ;;
  print "  • Works offline" ;;
  print (nl ++ "Trade-offs:") ;;
  print "  • Less powerful than frontier models like GPT-4" ;;
  print "  • Slower on consumer hardware".

(** Lines 114-146: [main] once the list of URLs is known. *)
Definition run (urls_to_summarize : list string) : M unit :=
  client <- connect ;;
  for_each urls_to_summarize (summarize_one client) ;;
  closing.

(** Lines 95-146. *)
Definition main (argv : list string) : M unit :=
  urls_to_summarize <- resolve_urls argv ;;
  run urls_to_summarize.

End Script.

(** ** Reading a trace *)

Section Observers.

Context {X : Externals}.

(** The URLs the content fetcher was asked for, in order. *)
Definition fetch_calls (tr : list Event) : list string :=
  flat_map (fun ev => match ev with EvFetch url => [url] | _ => [] end) tr.

(** The chat-completion requests made, in order. *)
Definition completion_calls (tr : list Event)
  : list (string * list Message) :=
  flat_map (fun ev =>
              match ev with
              | EvCreate _ model messages => [(model, messages)]
              | _ => []
              end) tr.

(** How one turn of the loop of [main] went: what the fetch did and what
    [summarize_website] did as a whole. *)
Record Attempt := mkAttempt {
  fetched : Outcome string;
  result : Outcome (option string)
}.

Definition attempt (client : Client) (url : string) (s : State) : Attempt :=
  mkAttempt (fst (fetch_website_contents url (world s)))
            (fst (summarize_website url client s)).

(** The turns the loop takes over [urls] from state [s], one after the
    other; the list stops after a turn that leaves the loop. *)
Fixpoint attempts (client : Client) (urls : list string) (s : State)
  : list Attempt :=
  match urls with
  | [] => []
  | url :: rest =>
      let a := attempt client url s in
      a :: (if recovered (result a)
            then attempts client rest (snd (summarize_one client url s))
            else [])
  end.

Definition succeeded (a : Attempt) : bool :=
  match result a with
  | Return _ => true
  | _ => false
  end.

(** The line of line 136. *)
Definition failure_line (url : string) (e : PyExc) : string :=
  "✗ Error summarizing " ++ url ++ ": " ++ exc_str e ++ nl.

(** What a turn prints when the summary came back (lines 132-134). *)
Definition success_report (url : string) (r : Outcome (option string))
  : list Event :=
  match r with
  | Return summary =>
      [ EvPrint (nl ++ "📄 Summary of " ++ url ++ ":" ++ nl);
        EvPrint (py_str summary);
        EvPrint "" ]
  | _ => []
  end.

(** What a turn prints when the handler of line 135 ran. *)
Definition failure_report (url : string) (r : Outcome (option string))
  : list Event :=
  match r with
  | Raise e => if is_Exception e then [EvPrint (failure_line url e)] else []
  | _ => []
  end.

(** The two messages of lines 64-67 under the globals [g]. *)
Definition prompt (g : Globals) (website_content : string) : list Message :=
  [ mkMessage "system" (SYSTEM_PROMPT g);
    mkMessage "user" (USER_PROMPT_PREFIX g ++ website_content) ].

(** [response.choices[0].message.content] *)
Definition first_choice_content (response : Response.ChatCompletion)
  : Outcome (option string) :=
  match Response.choices response with
  | choice :: _ => Return (Response.content (Response.message choice))
  | [] => Raise IndexError
  end.

(** What [summarize_website] leaves in the trace, given what the fetch
    did. *)
Definition summarize_events (g : Globals) (client : Client) (url : string)
    (f : Outcome string) : list Event :=
  [ EvPrint ("Fetching website content from: " ++ url); EvFetch url ] ++
  match f with
  | Return website_content =>
      [ EvPrint ("Generating summary using " ++ MODEL g ++ "...");
        EvCreate client (MODEL g) (prompt g website_content) ]
  | _ => []
  end.

(** Everything one turn of the loop leaves in the trace. *)
Definition turn_events (g : Globals) (client : Client)
    (turn : string * Attempt) : list Event :=
  let (url, a) := turn in
  EvPrint (str_repeat "=" 70)
    :: summarize_events g client url (fetched a)
    ++ success_report url (result a)
    ++ failure_report url (result a).

(** The failure lines the loop printed, over all its turns. *)
Definition failure_reports (log : list (string * Attempt)) : list Event :=
  flat_map (fun turn : string * Attempt =>
              failure_report (fst turn) (result (snd turn))) log.

(** What lines 138-146 print. *)
Definition closing_events : list Event :=
  [ EvPrint (str_repeat "=" 70);
    EvPrint (nl ++ "✓ Done!");
    EvPrint (nl ++ "Benefits of using Ollama:");
    EvPrint "  • No API charges - completely free";
    EvPrint "  • Data stays on your machine - privacy";
    EvPrint "  • Works offline";
    EvPrint (nl ++ "Trade-offs:");
    EvPrint "  • Less powerful than frontier models like GPT-4";
    EvPrint "  • Slower on consumer hardware" ].

(** What lines 120-124 print for the exception [e]. *)
Definition remediation_events (g : Globals) (e : PyExc) : list Event :=
  [ EvPrint ("✗ Error connecting to Ollama: " ++ exc_str e);
    EvPrint (nl ++ "Make sure Ollama is running:");
    EvPrint "  1. Visit http://localhost:11434 to check if Ollama is running";
    EvPrint "  2. If not, run 'ollama serve' in a terminal";
    EvPrint ("  3. Pull the model with 'ollama pull " ++ MODEL g ++ "'") ].

(** An operation that leaves the module globals as it found them. *)
Definition preserves_globals {A} (m : M A) : Prop :=
  forall s, globals (snd (m s)) = globals s.

End Observers.

(** ** Further readings of a run *)

Section Requests.

Context {X : Externals}.

(** The client constructions made, in order: base URL and key. *)
Definition openai_calls (tr : list Event) : list (string * string) :=
  flat_map (fun ev =>
              match ev with
              | EvOpenAI base_url api_key => [(base_url, api_key)]
              | _ => []
              end) tr.

(** The clients the chat-completion requests were made on, in order. *)
Definition clients_used (tr : list Event) : list Client :=
  flat_map (fun ev =>
              match ev with
              | EvCreate client _ _ => [client]
              | _ => []
              end) tr.

(** The chat-completion request of one turn: lines 87-90 are reached only
    when the fetch of line 82 returned. *)
Definition turn_request (g : Globals) (turn : string * Attempt)
  : list (string * list Message) :=
  match fetched (snd turn) with
  | Return website_content => [(MODEL g, prompt g website_content)]
  | _ => []
  end.

(** The turns the handler of line 135 ran for: URL and exception. *)
Definition failed_turns (log : list (string * Attempt))
  : list (string * PyExc) :=
  flat_map (fun turn : string * Attempt =>
              match result (snd turn) with
              | Raise e => if is_Exception e then [(fst turn, e)] else []
              | _ => []
              end) log.

(** How the [for] statement of line 128 ends: normally when every turn was
    recovered, otherwise with what the first other turn raised. *)
Fixpoint loop_outcome (turns : list Attempt) : Outcome unit :=
  match turns with
  | [] => Return tt
  | a :: rest =>
      if recovered (result a) then loop_outcome rest
      else and_then (result a) (fun _ => Return tt)
  end.

(** The URL of the first turn of [main] for the command line [argv]. *)
Definition first_url (argv : list string) : string :=
  match nth_error argv 1 with
  | Some url => url
  | None => "https://edwarddonner.com"
  end.

End Requests.

(** ** Test doubles *)

(** A scripted outside world: the endpoint is up or down, and counts the
    requests it served.  The fetcher knows three pages; the endpoint answers
    with one choice, except for the empty page, for which it answers with
    none. *)
Module Demo.

Record world := mkWorld { endpoint_up : bool; served : nat }.

Definition refused : PyExc :=
  mkExc "APIConnectionError" true "Connection error.".

Definition unreachable : PyExc :=
  mkExc "ConnectionError" true "Name or service not known".

Definition fetch (url : string) (w : world) : Outcome string * world :=
  if String.eqb url "https://example.com" then (Return "Hello world", w)
  else if String.eqb url "https://empty.example" then (Return "", w)
  else (Raise unreachable, w).

Definition answer (messages : list Message) : Response.ChatCompletion :=
  match messages with
  | [_; user] =>
      if String.eqb (content user) (USER_PROMPT_PREFIX module_globals)
      then Response.mkCompletion []
      else Response.mkCompletion
             [ Response.mkChoice
                 (Response.mkMsg (Some ("# Summary" ++ nl ++ "Hello."))) ]
  | _ => Response.mkCompletion []
  end.

#[local] Instance externals : Externals := {|
  World := world;
  Client := string;
  OpenAI := fun base_url _ w =>
    if endpoint_up w then (Return base_url, w) else (Raise refused, w);
  fetch_website_contents := fetch;
  chat_completions_create := fun _ _ messages w =>
    (Return (answer messages), mkWorld (endpoint_up w) (S (served w)))
|}.

Definition up : State := startup (mkWorld true 0).
Definition down : State := startup (mkWorld false 0).

Definition three : list string :=
  [ "https://example.com"; "https://down.example"; "https://example.com" ].

Definition script : string := "week1/claude_solution.py".
Definition client : string := "http://localhost:11434/v1".

(** The state in which the loop starts when the endpoint is up. *)
Definition connected : State := snd (connect up).

(** How the turns on the two kinds of page go. *)
Definition down_page : Attempt :=
  mkAttempt (Raise unreachable) (Raise unreachable).

Definition hello_page : Attempt :=
  mkAttempt (Return "Hello world")
            (Return (Some ("# Summary" ++ nl ++ "Hello."))).

End Demo.

(** A second scripted world, for what no handler of the script catches: the
    user interrupts the fetch of one page, and the construction of the
    client is interrupted when the world says so. *)
Module Interrupted.

Definition KeyboardInterrupt : PyExc := mkExc "KeyboardInterrupt" false "".

Definition fetch (url : string) (w : bool) : Outcome string * bool :=
  if String.eqb url "https://slow.example" then (Raise KeyboardInterrupt, w)
  else (Return "Hello world", w).

Definition externals : Externals := {|
  World := bool;
  Client := unit;
  OpenAI := fun _ _ w =>
    if w then (Return tt, w) else (Raise KeyboardInterrupt, w);
  fetch_website_contents := fetch;
  chat_completions_create := fun _ _ _ w =>
    (Return (Response.mkCompletion
               [Response.mkChoice (Response.mkMsg (Some "ok"))]), w)
|}.

Definition ready : State (X := externals) :=
  startup (X := externals) true.
Definition early : State (X := externals) :=
  startup (X := externals) false.

Definition connected : State (X := externals) :=
  snd (connect (X := externals) ready).

Definition pages : list string :=
  [ "https://example.com"; "https://slow.example"; "https://example.com" ].

Definition interrupted_page : Attempt :=
  mkAttempt (Raise KeyboardInterrupt) (Raise KeyboardInterrupt).

End Interrupted.

(** ** Properties *)

Create HintDb globals.

Section Frame.

Context {X : Externals}.

Lemma preserves_ret A (a : A) : preserves_globals (ret a).
Proof. intro s. reflexivity. Qed.

Lemma preserves_raise A (e : PyExc) : preserves_globals (raise (A := A) e).
Proof. intro s. reflexivity. Qed.

Lemma preserves_sys_exit A (code : Z) :
  preserves_globals (sys_exit (A := A) code).
Proof. intro s. reflexivity. Qed.

Lemma preserves_print text : preserves_globals (print text).
Proof. intro s. reflexivity. Qed.

Lemma preserves_global A (name : Globals -> A) :
  preserves_globals (global name).
Proof. intro s. reflexivity. Qed.

Lemma preserves_call A ev (f : World -> Outcome A * World) :
  preserves_globals (call ev f).
Proof.
  intro s. unfold call. simpl.
  destruct (f (world s)) as [r w]. reflexivity.
Qed.

Lemma preserves_lift A (r : PyExc + A) : preserves_globals (lift r).
Proof. intro s. destruct r; reflexivity. Qed.

Lemma preserves_bind A B (m : M A) (k : A -> M B) :
  preserves_globals m ->
  (forall a, preserves_globals (k a)) ->
  preserves_globals (bind m k).
Proof.
  intros Hm Hk s. unfold bind.
  specialize (Hm s).
  destruct (m s) as [[a | e | code] s1]; simpl in *; try assumption.
  rewrite Hk. assumption.
Qed.

Lemma preserves_try_except A (body : M A) (handler : PyExc -> M A) :
  preserves_globals body ->
  (forall e, preserves_globals (handler e)) ->
  preserves_globals (try_except body handler).
Proof.
  intros Hb Hh s. unfold try_except.
  specialize (Hb s).
  destruct (body s) as [[a | e | code] s1]; simpl in *; try assumption.
  destruct (is_Exception e); simpl; [rewrite Hh|]; assumption.
Qed.

Lemma preserves_for_each A (l : list A) (body : A -> M unit) :
  (forall a, preserves_globals (body a)) ->
  preserves_globals (for_each l body).
Proof.
  intro Hb. induction l as [| x rest IH]; simpl.
  - apply preserves_ret.
  - apply preserves_bind; auto.
Qed.

End Frame.

#[export] Hint Resolve preserves_ret preserves_raise preserves_sys_exit
  preserves_print preserves_global preserves_call preserves_lift
  preserves_bind preserves_try_except preserves_for_each : globals.

Ltac frame :=
  repeat first
    [ assumption
    | match goal with |- forall _, _ => intro end
    | apply preserves_bind
    | apply preserves_try_except
    | apply preserves_for_each
    | solve [auto with globals] ].

Section Operations.

Context {X : Externals}.

Lemma create_ollama_client_frame : preserves_globals create_ollama_client.
Proof. unfold create_ollama_client. frame. Qed.

Lemma create_messages_frame c : preserves_globals (create_messages c).
Proof. unfold create_messages. frame. Qed.

Lemma summarize_website_frame url client :
  preserves_globals (summarize_website url client).
Proof.
  unfold summarize_website.
  pose proof create_messages_frame.
  frame.
Qed.

Lemma resolve_urls_frame argv : preserves_globals (resolve_urls argv).
Proof. unfold resolve_urls. destruct (Nat.ltb _ _); frame. Qed.

Lemma connect_frame : preserves_globals connect.
Proof.
  unfold connect. pose proof create_ollama_client_frame. frame.
Qed.

Lemma summarize_one_frame client url :
  preserves_globals (summarize_one client url).
Proof.
  unfold summarize_one. pose proof summarize_website_frame. frame.
Qed.

Lemma closing_frame : preserves_globals closing.
Proof. unfold closing. frame. Qed.

Lemma run_frame urls : preserves_globals (run urls).
Proof.
  unfold run.
  pose proof connect_frame. pose proof summarize_one_frame.
  pose proof closing_frame. frame.
Qed.

Lemma main_frame argv : preserves_globals (main argv).
Proof.
  unfold main. pose proof resolve_urls_frame. pose proof run_frame. frame.
Qed.

End Operations.

#[local] Arguments String.append : simpl never.
#[local] Arguments str_repeat : simpl never.

Section Runs.

Context {X : Externals}.

Lemma state_eta (s : State) : mkState (globals s) (world s) (trace s) = s.
Proof. destruct s; reflexivity. Qed.

(** [create_messages] returns the two messages and touches nothing. *)
Lemma create_messages_run website_content s :
  create_messages website_content s
  = (Return (prompt (globals s) website_content), s).
Proof. reflexivity. Qed.

(** One call of [summarize_website], in terms of what the two
    collaborators do. *)
Lemma summarize_website_run url client s :
  let g := globals s in
  let f := fetch_website_contents url (world s) in
  let c website_content :=
    chat_completions_create client (MODEL g) (prompt g website_content)
                            (snd f) in
  summarize_website url client s
  = (and_then (fst f) (fun website_content =>
       and_then (fst (c website_content)) first_choice_content),
     mkState g
       match fst f with
       | Return website_content => snd (c website_content)
       | _ => snd f
       end
       (trace s ++ summarize_events g client url (fst f))).
Proof.
  unfold summarize_website, bind, print, call, global, create_messages, ret,
    emit, summarize_events, first_choice_content, lift, py_index, raise,
    prompt.
  simpl.
  destruct (fetch_website_contents url (world s)) as [[wc | e | code] w1];
    simpl; rewrite <- ?app_assoc; simpl; try reflexivity.
  destruct (chat_completions_create client _ _ w1) as [[resp | e | code] w2];
    simpl; rewrite <- ?app_assoc; simpl; try reflexivity.
  destruct (Response.choices resp) as [| choice rest]; reflexivity.
Qed.

(** One turn of the loop. *)
Lemma summarize_one_run client url s :
  let a := attempt client url s in
  summarize_one client url s
  = (if recovered (result a) then Return tt
     else and_then (result a) (fun _ => Return tt),
     mkState (globals s)
             (world (snd (summarize_website url client s)))
             (trace s ++ turn_events (globals s) client (url, a))).
Proof.
  intros a. subst a.
  unfold summarize_one, attempt, turn_events.
  unfold bind at 1. unfold print at 1. cbv beta iota.
  unfold try_except. unfold bind at 1.
  rewrite (summarize_website_run url client (emit (EvPrint _) s)).
  rewrite (summarize_website_run url client s).
  cbv zeta. simpl globals. simpl world. simpl trace. simpl fst.
  set (f := fetch_website_contents url (world s)).
  set (r := and_then (fst f) _).
  set (w := match fst f with Return _ => _ | _ => snd f end).
  unfold success_report, failure_report.
  destruct r as [summary | e | code]; simpl.
  - unfold bind, print, emit; simpl.
    rewrite <- ?app_assoc; simpl. rewrite ?app_nil_r. reflexivity.
  - destruct (is_Exception e); unfold print, emit, failure_line; simpl;
      rewrite <- ?app_assoc; simpl; rewrite ?app_nil_r; reflexivity.
  - rewrite <- ?app_assoc; simpl. rewrite ?app_nil_r. reflexivity.
Qed.

(** The whole loop: the turns follow one another in the order of [urls],
    each leaving its own block of events, and the loop ends normally when
    every turn was recovered. *)
Lemma for_each_run client urls : forall s,
  let turns := attempts client urls s in
  let s' := snd (for_each urls (summarize_one client) s) in
  globals s' = globals s
  /\ trace s'
     = (trace s
        ++ flat_map (turn_events (globals s) client) (combine urls turns))%list
  /\ (forallb (fun a => recovered (result a)) turns = true ->
      fst (for_each urls (summarize_one client) s) = Return tt
      /\ List.length turns = List.length urls).
Proof.
  induction urls as [| url rest IH]; intros s.
  - simpl. rewrite app_nil_r. auto.
  - cbn [attempts for_each]. cbv zeta.
    pose proof (summarize_one_run client url s) as Hone. cbv zeta in Hone.
    set (a := attempt client url s) in *.
    unfold bind. rewrite Hone. cbn [snd fst].
    destruct (recovered (result a)) eqn:Hrec.
    + set (s1 := mkState _ _ _).
      destruct (IH s1) as (Hg & Ht & Hok).
      cbn [combine flat_map forallb List.length].
      rewrite Hrec. cbn [andb].
      split; [exact Hg|]. split.
      * rewrite Ht. subst s1. cbn [trace globals].
        rewrite <- app_assoc. reflexivity.
      * intros Hall. destruct (Hok Hall) as [Hr Hlen].
        split; [assumption | congruence].
    + cbn [combine flat_map forallb List.length].
      rewrite Hrec. cbn [andb].
      destruct (result a) as [summary | e | code];
        cbn [and_then snd fst globals trace]; try discriminate;
        rewrite combine_nil; cbn [flat_map]; rewrite app_nil_r;
        repeat split; discriminate.
Qed.

Lemma closing_run s :
  closing s
  = (Return tt, mkState (globals s) (world s) (trace s ++ closing_events)).
Proof.
  unfold closing, closing_events, bind, print, emit. simpl.
  rewrite <- ?app_assoc. reflexivity.
Qed.

Lemma resolve_urls_run argv s :
  resolve_urls argv s
  = match argv with
    | _ :: url :: _ => (Return [url], s)
    | _ =>
        (Return default_urls,
         emit (EvPrint ("No URL provided. Summarizing default websites..."
                        ++ nl)) s)
    end.
Proof.
  unfold resolve_urls.
  destruct argv as [| prog [| url more]]; reflexivity.
Qed.

(** The resolution always returns; all it may do is print one line. *)
Lemma resolve_urls_quiet argv s :
  exists urls evs,
    resolve_urls argv s
    = (Return urls, mkState (globals s) (world s) (trace s ++ evs))
    /\ fetch_calls evs = [] /\ completion_calls evs = [].
Proof.
  rewrite resolve_urls_run.
  destruct argv as [| prog [| url more]].
  - exists default_urls. eexists. repeat split.
  - exists default_urls. eexists. repeat split.
  - exists [url], []. rewrite app_nil_r, state_eta. repeat split.
Qed.

(** Lines 114-125, by what the constructor does. *)
Lemma connect_run s :
  let g := globals s in
  let opened := EvOpenAI (OLLAMA_BASE_URL g) "ollama" in
  connect s
  = match OpenAI (OLLAMA_BASE_URL g) "ollama" (world s) with
    | (Return client, w) =>
        (Return client,
         mkState g w
           (trace s
            ++ [ opened;
                 EvPrint ("✓ Connected to Ollama at " ++ OLLAMA_BASE_URL g);
                 EvPrint ("✓ Using model: " ++ MODEL g ++ nl) ]))
    | (Raise e, w) =>
        if is_Exception e
        then (Exit 1, mkState g w (trace s ++ opened :: remediation_events g e))
        else (Raise e, mkState g w (trace s ++ [opened]))
    | (Exit code, w) => (Exit code, mkState g w (trace s ++ [opened]))
    end.
Proof.
  unfold connect, try_except, create_ollama_client, bind, global, call.
  simpl.
  destruct (OpenAI _ _ (world s)) as [[client | e | code] w]; simpl;
    try reflexivity.
  - unfold print, ret, emit. simpl. rewrite <- ?app_assoc. reflexivity.
  - destruct (is_Exception e); [|reflexivity].
    unfold bind, print, sys_exit, emit, remediation_events. simpl.
    rewrite <- ?app_assoc. reflexivity.
Qed.

Lemma connect_returns s client s1 :
  connect s = (Return client, s1) ->
  globals s1 = globals s
  /\ fetch_calls (trace s1) = fetch_calls (trace s)
  /\ completion_calls (trace s1) = completion_calls (trace s).
Proof.
  rewrite connect_run. cbv zeta.
  destruct (OpenAI _ _ (world s)) as [[c | e | code] w];
    try destruct (is_Exception e); intros H; inversion H; subst; simpl.
  unfold fetch_calls, completion_calls.
  rewrite !flat_map_app. simpl. rewrite !app_nil_r. auto.
Qed.

(** [main] from line 127 on, once the client exists. *)
Lemma run_connected urls s client s1 :
  connect s = (Return client, s1) ->
  run urls s
  = match for_each urls (summarize_one client) s1 with
    | (Return _, s2) =>
        (Return tt,
         mkState (globals s2) (world s2) (trace s2 ++ closing_events))
    | (Raise e, s2) => (Raise e, s2)
    | (Exit code, s2) => (Exit code, s2)
    end.
Proof.
  intros Hc. unfold run. unfold bind at 1. rewrite Hc.
  unfold bind.
  destruct (for_each urls (summarize_one client) s1) as [[[] | e | code] s2];
    try reflexivity.
  apply closing_run.
Qed.

(** ** Projections of the blocks of the loop *)

Lemma fetch_calls_app (tr1 tr2 : list Event) :
  fetch_calls (tr1 ++ tr2) = (fetch_calls tr1 ++ fetch_calls tr2)%list.
Proof. apply flat_map_app. Qed.

Lemma completion_calls_app (tr1 tr2 : list Event) :
  completion_calls (tr1 ++ tr2)
  = (completion_calls tr1 ++ completion_calls tr2)%list.
Proof. apply flat_map_app. Qed.

Lemma fetch_calls_turn g client url a :
  fetch_calls (turn_events g client (url, a)) = [url].
Proof.
  unfold turn_events, summarize_events, success_report, failure_report.
  destruct a as [f r]; simpl.
  destruct f; simpl; destruct r as [summary | e' | code']; simpl;
    try destruct (is_Exception e'); reflexivity.
Qed.

Lemma fetch_calls_turns g client (log : list (string * Attempt)) :
  fetch_calls (flat_map (turn_events g client) log) = map fst log.
Proof.
  induction log as [| [url a] rest IH]; [reflexivity|].
  cbn [flat_map map fst].
  rewrite fetch_calls_app, fetch_calls_turn, IH. reflexivity.
Qed.

Lemma map_fst_combine_prefix A B (l : list A) (l' : list B) :
  map fst (combine l l') = firstn (List.length l') l.
Proof.
  revert l'. induction l as [| x l IH]; intros [| y l']; simpl;
    try reflexivity.
  f_equal. apply IH.
Qed.

(** ** Counting the failures *)

Lemma failure_reports_none urls (turns : list Attempt) :
  (forall a, In a turns -> succeeded a = true) ->
  failure_reports (combine urls turns) = [].
Proof.
  revert turns. induction urls as [| url rest IH]; intros [| a turns] Hall;
    try reflexivity.
  unfold failure_reports in *. cbn [combine flat_map fst snd].
  rewrite IH by (intros; apply Hall; right; assumption).
  pose proof (Hall a (or_introl eq_refl)) as Ha. unfold succeeded in Ha.
  destruct (result a); try discriminate. reflexivity.
Qed.

Lemma failure_reports_single urls : forall (turns : list Attempt) K url a e,
  nth_error urls K = Some url ->
  nth_error turns K = Some a ->
  result a = Raise e ->
  is_Exception e = true ->
  (forall i a', nth_error turns i = Some a' -> i <> K ->
                succeeded a' = true) ->
  failure_reports (combine urls turns) = [EvPrint (failure_line url e)].
Proof.
  induction urls as [| u rest IH]; intros turns K url a e Hu Ha Hres Hexc Hoth.
  - destruct K; discriminate.
  - destruct turns as [| b turns]; [destruct K; discriminate|].
    destruct K as [| K]; simpl in Hu, Ha.
    + injection Hu as ->. injection Ha as ->.
      unfold failure_reports. cbn [combine flat_map fst snd].
      fold (failure_reports (combine rest turns)).
      rewrite Hres. cbn [failure_report]. rewrite Hexc.
      rewrite failure_reports_none; [reflexivity|].
      intros a' Hin. apply In_nth_error in Hin as [i Hi].
      apply (Hoth (S i)); [assumption | discriminate].
    + unfold failure_reports. cbn [combine flat_map fst snd].
      fold (failure_reports (combine rest turns)).
      pose proof (Hoth 0 b eq_refl ltac:(discriminate)) as Hb.
      unfold succeeded in Hb.
      destruct (result b); try discriminate. cbn [failure_report app].
      apply (IH turns K url a e); try assumption.
      intros i a' Hi Hne. apply (Hoth (S i)); [assumption | congruence].
Qed.

Lemma all_recovered (turns : list Attempt) K a e :
  nth_error turns K = Some a ->
  result a = Raise e ->
  is_Exception e = true ->
  (forall i a', nth_error turns i = Some a' -> i <> K ->
                succeeded a' = true) ->
  forallb (fun a => recovered (result a)) turns = true.
Proof.
  intros Ha Hres Hexc Hoth. apply forallb_forall. intros b Hin.
  apply In_nth_error in Hin as [i Hi].
  destruct (Nat.eq_dec i K) as [-> | Hne].
  - rewrite Ha in Hi. injection Hi as <-. rewrite Hres. assumption.
  - specialize (Hoth i b Hi Hne). unfold succeeded in Hoth.
    destruct (result b); try discriminate. reflexivity.
Qed.

(** ** The run after the connection *)

Lemma fetch_calls_closing : fetch_calls closing_events = [].
Proof. reflexivity. Qed.

(** Whatever the turns do, the pages fetched during the run are the URLs
    of the turns taken, in order. *)
Lemma run_fetch_calls urls s client s1 :
  connect s = (Return client, s1) ->
  fetch_calls (trace (snd (run urls s)))
  = (fetch_calls (trace s)
     ++ firstn (List.length (attempts client urls s1)) urls)%list.
Proof.
  intros Hc. rewrite (run_connected urls s client s1 Hc).
  destruct (connect_returns s client s1 Hc) as (_ & Hf & _).
  destruct (for_each_run client urls s1) as (_ & Ht & _).
  destruct (for_each urls (summarize_one client) s1) as [[[] | e | code] s2];
    cbn [snd trace] in *; rewrite Ht, ?fetch_calls_app, fetch_calls_turns,
    map_fst_combine_prefix, Hf, ?fetch_calls_closing, ?app_nil_r;
    reflexivity.
Qed.

(** When every turn is recovered, the run returns and its trace is the
    blocks of the turns followed by the closing lines. *)
Lemma run_recovered urls s client s1 :
  connect s = (Return client, s1) ->
  forallb (fun a => recovered (result a)) (attempts client urls s1) = true ->
  fst (run urls s) = Return tt
  /\ List.length (attempts client urls s1) = List.length urls
  /\ trace (snd (run urls s))
     = (trace s1
        ++ flat_map (turn_events (globals s1) client)
                    (combine urls (attempts client urls s1))
        ++ closing_events)%list.
Proof.
  intros Hc Hall. rewrite (run_connected urls s client s1 Hc).
  destruct (for_each_run client urls s1) as (_ & Ht & Hok).
  destruct (Hok Hall) as [Hr Hlen].
  destruct (for_each urls (summarize_one client) s1) as [r s2].
  cbn [fst snd] in *. subst r. cbn [fst snd trace].
  rewrite Ht, <- app_assoc. auto.
Qed.

End Runs.

(** ** The claims *)

Section Claims.

Context {X : Externals}.

(** C1: for every content string, the empty one included, [create_messages]
    returns exactly two messages: the first has role "system" and the fixed
    system prompt as content, the second has role "user" and as content the
    fixed prefix followed by the input content, so it ends with the input
    content. *)
Theorem create_messages_two_messages (website_content : string) (s : State) :
  globals s = module_globals ->
  create_messages website_content s
  = (Return [ mkMessage "system" (SYSTEM_PROMPT module_globals);
              mkMessage "user"
                (USER_PROMPT_PREFIX module_globals ++ website_content) ],
     s)
  /\ (exists messages,
        fst (create_messages website_content s) = Return messages
        /\ List.length messages = 2
        /\ map role messages = ["system"; "user"]
        /\ exists front,
             map content messages
             = [SYSTEM_PROMPT module_globals; front ++ website_content])
  /\ fst (create_messages "" s)
     = Return [ mkMessage "system" (SYSTEM_PROMPT module_globals);
                mkMessage "user" (USER_PROMPT_PREFIX module_globals) ].
Proof.
  intros Hg. rewrite !create_messages_run, Hg. repeat split.
  eexists. repeat split.
  exists (USER_PROMPT_PREFIX module_globals). reflexivity.
Qed.

(** C8: [create_messages] is pure: run in any state it returns (it never
    raises or exits) and leaves the state, trace included, as it was; two
    calls on equal contents under the same globals return equal lists,
    whatever the outside world and the trace are. *)
Theorem create_messages_pure :
  (forall website_content s,
     exists messages,
       create_messages website_content s = (Return messages, s))
  /\ (forall c1 c2 s1 s2,
        c1 = c2 ->
        globals s1 = globals s2 ->
        fst (create_messages c1 s1) = fst (create_messages c2 s2)).
Proof.
  split.
  - intros wc s. eexists. apply create_messages_run.
  - intros c1 c2 s1 s2 -> Hg. rewrite !create_messages_run, Hg. reflexivity.
Qed.

(** C7: the configuration (base URL, model, system prompt, user prompt
    prefix) is what the module body set at startup, and no operation of the
    program changes it: each of them, run from any state, ends in a state
    with the same globals, so a whole run of [main] from startup ends with
    the startup configuration. *)
Theorem config_never_mutated :
  (forall w, globals (startup w) = module_globals)
  /\ preserves_globals create_ollama_client
  /\ (forall website_content, preserves_globals (create_messages website_content))
  /\ (forall url client, preserves_globals (summarize_website url client))
  /\ (forall argv, preserves_globals (resolve_urls argv))
  /\ preserves_globals connect
  /\ (forall client url, preserves_globals (summarize_one client url))
  /\ preserves_globals closing
  /\ (forall argv, preserves_globals (main argv))
  /\ (forall argv w, globals (snd (main argv (startup w))) = module_globals).
Proof.
  repeat split;
    auto using create_ollama_client_frame, create_messages_frame,
      summarize_website_frame, resolve_urls_frame, connect_frame,
      summarize_one_frame, closing_frame, main_frame.
  intros argv w. apply main_frame.
Qed.

(** C9: with two or more command-line arguments, the first is the only URL
    summarized; the others are ignored without any error or message: the
    resolution returns, prints nothing, and the whole run is the run of the
    first argument alone. *)
Theorem extra_arguments_ignored (prog url extra : string)
    (more : list string) (s : State) :
  resolve_urls (prog :: url :: extra :: more) s = (Return [url], s)
  /\ main (prog :: url :: extra :: more) s = main [prog; url] s.
Proof.
  split.
  - rewrite resolve_urls_run. reflexivity.
  - unfold main, bind. rewrite !resolve_urls_run. reflexivity.
Qed.

(** C5: [summarize_website url client] is the composition of the fetch of
    [url], [create_messages] on the fetched content, and one chat-completion
    call with the configured model and those messages; it returns the content
    of the message of the first choice of the response.  A fetch that fails
    ends the call with that failure before any message is built or sent; a
    chat-completion call that fails ends it with that failure; each
    collaborator is called at most once (nothing is retried). *)
Theorem summarize_website_composition (url : string) (client : Client)
    (s : State) :
  let g := globals s in
  let fetching := EvPrint ("Fetching website content from: " ++ url) in
  let generating := EvPrint ("Generating summary using " ++ MODEL g ++ "...") in
  let (r, s') := summarize_website url client s in
  match fetch_website_contents url (world s) with
  | (Return website_content, w1) =>
      exists messages,
        create_messages website_content s = (Return messages, s)
        /\ let sent := EvCreate client (MODEL g) messages in
           match chat_completions_create client (MODEL g) messages w1 with
           | (completed, w2) =>
               r = and_then completed first_choice_content
               /\ s' = mkState g w2
                         (trace s ++ [fetching; EvFetch url; generating; sent])
           end
  | (Raise e, w1) =>
      r = Raise e
      /\ s' = mkState g w1 (trace s ++ [fetching; EvFetch url])
  | (Exit code, w1) =>
      r = Exit code
      /\ s' = mkState g w1 (trace s ++ [fetching; EvFetch url])
  end.
Proof.
  cbv zeta. rewrite summarize_website_run. cbv zeta.
  unfold summarize_events.
  destruct (fetch_website_contents url (world s)) as [[wc | e | code] w1];
    cbn [fst snd and_then]; rewrite ?app_nil_r; auto.
  exists (prompt (globals s) wc). split; [apply create_messages_run|].
  destruct (chat_completions_create client _ _ w1) as [completed w2].
  auto.
Qed.

(** C10: [summarize_website] takes [choices[0]] of the response without
    looking at the length of the list.  When the fetch and the
    chat-completion call return: if the response has a first choice, the
    content of its message is returned; if it has no choice, IndexError is
    raised, and the loop of [main] treats it as a failure of that URL: it
    prints the failure line and goes on with the remaining URLs. *)
Theorem unguarded_first_choice (url : string) (client : Client) (s : State)
    (website_content : string) (w1 w2 : World)
    (response : Response.ChatCompletion) :
  fetch_website_contents url (world s) = (Return website_content, w1) ->
  chat_completions_create client (MODEL (globals s))
    (prompt (globals s) website_content) w1 = (Return response, w2) ->
  (forall choice others,
     Response.choices response = choice :: others ->
     fst (summarize_website url client s)
     = Return (Response.content (Response.message choice)))
  /\ (Response.choices response = [] ->
      fst (summarize_website url client s) = Raise IndexError
      /\ is_Exception IndexError = true
      /\ exists before,
           summarize_one client url s
           = (Return tt,
              mkState (globals s) w2
                (trace s ++ before
                   ++ [EvPrint (failure_line url IndexError)]))
           /\ forall urls,
                for_each (url :: urls) (summarize_one client) s
                = for_each urls (summarize_one client)
                    (mkState (globals s) w2
                       (trace s ++ before
                          ++ [EvPrint (failure_line url IndexError)]))).
Proof.
  intros Hfetch Hcreate.
  pose proof (summarize_website_run url client s) as Hrun. cbv zeta in Hrun.
  rewrite Hfetch in Hrun. cbn [fst snd and_then] in Hrun.
  rewrite Hcreate in Hrun. cbn [fst snd and_then] in Hrun.
  unfold first_choice_content in Hrun.
  split.
  - intros choice others Hchoices. rewrite Hrun, Hchoices. reflexivity.
  - intros Hnone. rewrite Hnone in Hrun.
    split; [rewrite Hrun; reflexivity|]. split; [reflexivity|].
    pose proof (summarize_one_run client url s) as Hone. cbv zeta in Hone.
    unfold attempt, turn_events in Hone.
    rewrite Hrun, Hfetch in Hone.
    cbn [fst snd result fetched recovered IndexError is_Exception
         success_report failure_report world] in Hone.
    rewrite app_nil_l in Hone.
    exists (EvPrint (str_repeat "=" 70)
              :: summarize_events (globals s) client url
                   (Return website_content)).
    split.
    + rewrite Hone. rewrite <- app_comm_cons. reflexivity.
    + intros urls. cbn [for_each]. unfold bind at 1.
      rewrite Hone. rewrite <- app_comm_cons. reflexivity.
Qed.

(** C3: when the construction of the client raises an exception, [main]
    prints the remediation message, exits with status 1, and neither fetches
    a page nor sends a chat-completion request. *)
Theorem connection_failure_is_fatal (argv : list string) (s : State)
    (e : PyExc) (w : World) :
  OpenAI (OLLAMA_BASE_URL (globals s)) "ollama" (world s) = (Raise e, w) ->
  is_Exception e = true ->
  let s' := snd (main argv s) in
  fst (main argv s) = Exit 1
  /\ exit_status (fst (main argv s)) = 1%Z
  /\ trace s'
     = (trace (snd (resolve_urls argv s))
        ++ EvOpenAI (OLLAMA_BASE_URL (globals s)) "ollama"
        :: remediation_events (globals s) e)%list
  /\ fetch_calls (trace s') = fetch_calls (trace s)
  /\ completion_calls (trace s') = completion_calls (trace s).
Proof.
  intros Hopen Hexc. cbv zeta.
  destruct (resolve_urls_quiet argv s) as (urls & evs & Hres & Hf & Hc).
  assert (Hmain : main argv s
                  = (Exit 1,
                     mkState (globals s) w
                       ((trace s ++ evs)
                        ++ EvOpenAI (OLLAMA_BASE_URL (globals s)) "ollama"
                        :: remediation_events (globals s) e))).
  { unfold main, bind at 1. rewrite Hres.
    unfold run, bind. rewrite connect_run. cbv zeta.
    cbn [globals world trace]. rewrite Hopen, Hexc. reflexivity. }
  rewrite Hmain, Hres. cbn [fst snd trace exit_status].
  repeat split.
  - rewrite !fetch_calls_app, Hf. cbn. rewrite !app_nil_r. reflexivity.
  - rewrite !completion_calls_app, Hc. cbn. rewrite !app_nil_r. reflexivity.
Qed.

(** C4: with exactly one command-line argument the list of URLs is that
    argument alone: the default list is not used, and once the client exists
    the run makes exactly one summarization attempt, for that URL.  With no
    argument the list is the built-in list of three default URLs. *)
Theorem argument_resolution (prog url : string) (s : State)
    (client : Client) (s1 : State) :
  connect s = (Return client, s1) ->
  resolve_urls [prog; url] s = (Return [url], s)
  /\ main [prog; url] s = run [url] s
  /\ attempts client [url] s1 = [attempt client url s1]
  /\ fetch_calls (trace (snd (main [prog; url] s)))
     = (fetch_calls (trace s) ++ [url])%list
  /\ resolve_urls [prog] s
     = (Return default_urls,
        emit (EvPrint ("No URL provided. Summarizing default websites..."
                       ++ nl)) s)
  /\ main [prog] s
     = run default_urls
         (emit (EvPrint ("No URL provided. Summarizing default websites..."
                         ++ nl)) s)
  /\ default_urls
     = [ "https://edwarddonner.com"; "https://anthropic.com";
         "https://cnn.com" ].
Proof.
  intros Hc.
  assert (Hone : attempts client [url] s1 = [attempt client url s1])
    by (cbn [attempts]; destruct (recovered _); reflexivity).
  assert (Hmain : main [prog; url] s = run [url] s) by reflexivity.
  repeat split; try assumption.
  rewrite Hmain, (run_fetch_calls [url] s client s1 Hc), Hone. reflexivity.
Qed.

(** C2: for every list of N URLs whose K-th summarization fails with an
    exception while the others succeed, the run attempts all N URLs in order
    (those after the K-th included), prints exactly one failure line, the one
    of the K-th URL with that URL and the text of the exception in it, and
    [main] returns, so the process ends with status 0. *)
Theorem one_failure_does_not_stop_the_run (urls : list string) (K : nat)
    (url : string) (s : State) (client : Client) (s1 : State)
    (a : Attempt) (e : PyExc) :
  connect s = (Return client, s1) ->
  nth_error urls K = Some url ->
  nth_error (attempts client urls s1) K = Some a ->
  result a = Raise e ->
  is_Exception e = true ->
  (forall i a', nth_error (attempts client urls s1) i = Some a' ->
                i <> K -> succeeded a' = true) ->
  let turns := attempts client urls s1 in
  let s' := snd (run urls s) in
  fst (run urls s) = Return tt
  /\ exit_status (fst (run urls s)) = 0%Z
  /\ List.length turns = List.length urls
  /\ fetch_calls (trace s') = (fetch_calls (trace s) ++ urls)%list
  /\ trace s'
     = (trace s1
        ++ flat_map (turn_events (globals s) client) (combine urls turns)
        ++ closing_events)%list
  /\ failure_reports (combine urls turns) = [EvPrint (failure_line url e)]
  /\ (forall i u a', nth_error urls i = Some u ->
                     nth_error turns i = Some a' -> i <> K ->
                     failure_report u (result a') = []
                     /\ success_report u (result a') <> [])
  /\ (forall argv s0,
        resolve_urls argv s0 = (Return urls, s) ->
        fst (main argv s0) = Return tt
        /\ exit_status (fst (main argv s0)) = 0%Z).
Proof.
  intros Hc Hu Ha Hres Hexc Hoth. cbv zeta.
  pose proof (all_recovered _ K a e Ha Hres Hexc Hoth) as Hall.
  destruct (run_recovered urls s client s1 Hc Hall) as (Hr & Hlen & Ht).
  destruct (connect_returns s client s1 Hc) as (Hg & _ & _).
  rewrite Hr.
  split; [reflexivity|]. split; [reflexivity|]. split; [assumption|].
  split; [rewrite (run_fetch_calls urls s client s1 Hc), Hlen, firstn_all;
          reflexivity|].
  split; [rewrite Ht, Hg; reflexivity|].
  split; [apply (failure_reports_single urls _ K url a e Hu Ha Hres Hexc Hoth)|].
  split.
  - intros i u a' _ Hi Hne.
    specialize (Hoth i a' Hi Hne). unfold succeeded in Hoth.
    destruct (result a'); try discriminate.
    split; [reflexivity | discriminate].
  - intros argv s0 Hargv.
    assert (Hmain : main argv s0 = run urls s)
      by (unfold main, bind; rewrite Hargv; reflexivity).
    rewrite Hmain, Hr. split; reflexivity.
Qed.

End Claims.

(** ** More on the loop and on the requests *)

Section Loop.

Context {X : Externals}.

Lemma openai_calls_app (tr1 tr2 : list Event) :
  openai_calls (tr1 ++ tr2) = (openai_calls tr1 ++ openai_calls tr2)%list.
Proof. apply flat_map_app. Qed.

Lemma clients_used_app (tr1 tr2 : list Event) :
  clients_used (tr1 ++ tr2) = (clients_used tr1 ++ clients_used tr2)%list.
Proof. apply flat_map_app. Qed.

(** What one block of the loop holds, seen through each projection. *)
Lemma turn_projections g client (turn : string * Attempt) :
  openai_calls (turn_events g client turn) = []
  /\ completion_calls (turn_events g client turn) = turn_request g turn
  /\ clients_used (turn_events g client turn)
     = map (fun _ => client) (turn_request g turn).
Proof.
  destruct turn as [url [f r]].
  unfold turn_events, turn_request, summarize_events, success_report,
    failure_report.
  cbn [fst snd fetched result].
  destruct f as [wc | e1 | c1]; destruct r as [summary | e2 | c2];
    try destruct (is_Exception e2); repeat split.
Qed.

Lemma turns_projections g client (log : list (string * Attempt)) :
  openai_calls (flat_map (turn_events g client) log) = []
  /\ completion_calls (flat_map (turn_events g client) log)
     = flat_map (turn_request g) log
  /\ clients_used (flat_map (turn_events g client) log)
     = map (fun _ => client) (flat_map (turn_request g) log).
Proof.
  induction log as [| turn rest (IHo & IHc & IHu)]; [repeat split|].
  destruct (turn_projections g client turn) as (Ho & Hc & Hu).
  cbn [flat_map].
  rewrite openai_calls_app, completion_calls_app, clients_used_app.
  rewrite Ho, Hc, Hu, IHo, IHc, IHu, map_app. repeat split.
Qed.

(** How the loop ends. *)
Lemma for_each_outcome client urls : forall s,
  fst (for_each urls (summarize_one client) s)
  = loop_outcome (attempts client urls s).
Proof.
  induction urls as [| url rest IH]; intros s; [reflexivity|].
  cbn [attempts for_each loop_outcome]. cbv zeta.
  pose proof (summarize_one_run client url s) as Hone. cbv zeta in Hone.
  set (a := attempt client url s) in *.
  unfold bind. rewrite Hone. cbn [snd].
  destruct (recovered (result a)) eqn:Hrec.
  - apply IH.
  - destruct (result a) as [summary | e | code]; try discriminate;
      reflexivity.
Qed.

(** A turn that is not recovered is the last one taken. *)
Lemma attempts_stop client urls : forall s K a,
  nth_error (attempts client urls s) K = Some a ->
  recovered (result a) = false ->
  List.length (attempts client urls s) = S K
  /\ loop_outcome (attempts client urls s)
     = and_then (result a) (fun _ => Return tt).
Proof.
  induction urls as [| url rest IH]; intros s K a Ha Hrec.
  - destruct K; discriminate.
  - cbn [attempts] in *. cbv zeta in *.
    set (b := attempt client url s) in *.
    destruct (recovered (result b)) eqn:Hb.
    + destruct K as [| K]; cbn [nth_error] in Ha.
      * injection Ha as ->. congruence.
      * destruct (IH _ K a Ha Hrec) as [Hlen Hout].
        cbn [List.length loop_outcome]. rewrite ?Hb. auto.
    + destruct K as [| K]; cbn [nth_error] in Ha.
      * injection Ha as <-. cbn [List.length loop_outcome].
        rewrite ?Hb. auto.
      * destruct K; discriminate.
Qed.

(** The failure lines printed are those of the failed turns, in order. *)
Lemma failure_reports_failed (log : list (string * Attempt)) :
  failure_reports log
  = map (fun failed : string * PyExc =>
           EvPrint (failure_line (fst failed) (snd failed)))
        (failed_turns log).
Proof.
  unfold failure_reports, failed_turns.
  induction log as [| [url a] rest IH]; [reflexivity|].
  cbn [flat_map fst snd]. rewrite map_app, <- IH.
  unfold failure_report.
  destruct (result a) as [summary | e | code];
    try destruct (is_Exception e); reflexivity.
Qed.

(** The run, from the construction of the client on. *)
Lemma run_shape urls s :
  exists post,
    trace (snd (run urls s))
    = (trace s
       ++ EvOpenAI (OLLAMA_BASE_URL (globals s)) "ollama" :: post)%list
    /\ openai_calls post = [].
Proof.
  pose proof (connect_run s) as Hc. cbv zeta in Hc.
  destruct (OpenAI (OLLAMA_BASE_URL (globals s)) "ollama" (world s))
    as [[client | e | code] w].
  - set (greeting :=
           [ EvPrint ("✓ Connected to Ollama at "
                      ++ OLLAMA_BASE_URL (globals s));
             EvPrint ("✓ Using model: " ++ MODEL (globals s) ++ nl) ]).
    set (s1 := mkState (globals s) w _) in Hc.
    rewrite (run_connected urls s client s1 Hc).
    destruct (for_each_run client urls s1) as (_ & Ht & _).
    set (log := combine urls (attempts client urls s1)) in *.
    destruct (turns_projections (globals s) client log) as (Ho & _ & _).
    change (globals s1) with (globals s) in Ht.
    change (trace s1)
      with (trace s
            ++ EvOpenAI (OLLAMA_BASE_URL (globals s)) "ollama" :: greeting)%list
      in Ht.
    destruct (for_each urls (summarize_one client) s1) as [[[] | e | code] s2];
      cbn [snd trace] in *; rewrite Ht.
    + exists (greeting ++ flat_map (turn_events (globals s) client) log
              ++ closing_events)%list.
      split; [rewrite <- !app_assoc; reflexivity|].
      rewrite !openai_calls_app, Ho. reflexivity.
    + exists (greeting ++ flat_map (turn_events (globals s) client) log)%list.
      split; [rewrite <- !app_assoc; reflexivity|].
      rewrite !openai_calls_app, Ho. reflexivity.
    + exists (greeting ++ flat_map (turn_events (globals s) client) log)%list.
      split; [rewrite <- !app_assoc; reflexivity|].
      rewrite !openai_calls_app, Ho. reflexivity.
  - unfold run, bind. rewrite Hc.
    destruct (is_Exception e); cbn [snd trace]; eexists;
      (split; [reflexivity|]); reflexivity.
  - unfold run, bind. rewrite Hc. cbn [snd trace]. eexists.
    split; reflexivity.
Qed.

End Loop.

(** ** The order of the run *)

Section Runner.

Context {X : Externals}.

(** The loop ends normally exactly when every turn was recovered. *)
Lemma loop_outcome_finished (turns : list Attempt) :
  match loop_outcome turns with
  | Return _ => forallb (fun a => recovered (result a)) turns = true
  | _ => forallb (fun a => recovered (result a)) turns = false
  end.
Proof.
  induction turns as [| a rest IH]; [reflexivity|].
  cbn [loop_outcome forallb].
  destruct (recovered (result a)) eqn:Hrec; cbn [andb]; [exact IH|].
  destruct (result a) as [summary | e | code]; cbn [recovered] in Hrec;
    try discriminate; reflexivity.
Qed.

(** C6: the run of [main] handles the URLs of its list strictly one after
    the other and in the order of the list: once the client is constructed,
    the trace it leaves is the block of events of the first URL (separator,
    fetch, request, then the summary or the failure line), then the whole
    block of the second, and so on, each turn starting in the state the
    previous one left, followed by the closing lines when the loop finished.
    So the pages fetched and the results printed follow the order of the
    input list, and cover all of it when no turn leaves the loop. *)
Theorem runner_sequential (urls : list string) (s : State) (client : Client)
    (s1 : State) :
  connect s = (Return client, s1) ->
  let turns := attempts client urls s1 in
  let log := combine urls turns in
  let finished := forallb (fun a => recovered (result a)) turns in
  let s' := snd (run urls s) in
  trace s'
  = (trace s1
     ++ flat_map (turn_events (globals s) client) log
     ++ (if finished then closing_events else []))%list
  /\ fst (run urls s) = loop_outcome turns
  /\ map fst log = firstn (List.length turns) urls
  /\ fetch_calls (trace s')
     = (fetch_calls (trace s) ++ firstn (List.length turns) urls)%list
  /\ (finished = true ->
      fst (run urls s) = Return tt
      /\ map fst log = urls
      /\ fetch_calls (trace s') = (fetch_calls (trace s) ++ urls)%list)
  /\ (forall argv s0,
        resolve_urls argv s0 = (Return urls, s) ->
        main argv s0 = run urls s).
Proof.
  intros Hc. cbv zeta.
  destruct (connect_returns s client s1 Hc) as (Hg & _ & _).
  pose proof (run_fetch_calls urls s client s1 Hc) as Hf.
  pose proof (for_each_outcome client urls s1) as Hout.
  destruct (for_each_run client urls s1) as (_ & Ht & Hok).
  pose proof (loop_outcome_finished (attempts client urls s1)) as Hfin.
  assert (Hrun :
    run urls s
    = (loop_outcome (attempts client urls s1),
       mkState (globals (snd (for_each urls (summarize_one client) s1)))
         (world (snd (for_each urls (summarize_one client) s1)))
         (trace s1
          ++ flat_map (turn_events (globals s) client)
               (combine urls (attempts client urls s1))
          ++ (if forallb (fun a => recovered (result a))
                   (attempts client urls s1)
              then closing_events else [])))).
  { rewrite (run_connected urls s client s1 Hc).
    destruct (for_each urls (summarize_one client) s1) as [r s2].
    cbn [fst snd] in *. rewrite <- Hout in *.
    destruct s2 as [g2 w2 t2]. cbn [globals world trace] in *.
    rewrite Hg in Ht. subst t2.
    destruct r as [[] | e | code]; rewrite Hfin;
      rewrite <- ?app_assoc, ?app_nil_r; reflexivity. }
  rewrite Hrun in *. cbn [fst snd trace] in *.
  split; [reflexivity|]. split; [reflexivity|].
  split; [apply map_fst_combine_prefix|].
  split; [exact Hf|].
  split.
  - intros Hall. destruct (Hok Hall) as [Hr Hlen].
    rewrite <- Hout, Hr, Hf, map_fst_combine_prefix, Hlen, firstn_all. auto.
  - intros argv s0 Hargv. unfold main, bind at 1. rewrite Hargv.
    exact Hrun.
Qed.

End Runner.

(** ** Strings *)

Lemma append_length (p c : string) :
  String.length (p ++ c) = String.length p + String.length c.
Proof. induction p as [| ch p IH]; simpl; [reflexivity | now rewrite IH]. Qed.

Lemma append_cancel (p c1 c2 : string) : p ++ c1 = p ++ c2 -> c1 = c2.
Proof.
  induction p as [| ch p IH]; simpl; intros H; [assumption|].
  injection H as H. auto.
Qed.

(** ** Further properties of the script *)

Section Extras.

Context {X : Externals}.

(** X1: whatever the command line is and whatever the collaborators do, a
    run of [main] constructs the client exactly once, with the configured
    base URL and the key "ollama", and does so before it fetches any page or
    sends any request. *)
Theorem client_constructed_once (argv : list string) (s : State) :
  let g := globals s in
  exists pre post,
    trace (snd (main argv s))
    = (trace s ++ pre ++ EvOpenAI (OLLAMA_BASE_URL g) "ollama" :: post)%list
    /\ fetch_calls pre = []
    /\ completion_calls pre = []
    /\ openai_calls pre = []
    /\ openai_calls post = []
    /\ openai_calls (trace (snd (main argv s)))
       = (openai_calls (trace s) ++ [(OLLAMA_BASE_URL g, "ollama")])%list.
Proof.
  cbv zeta.
  assert (Hres : exists urls pre,
             main argv s
             = run urls (mkState (globals s) (world s) (trace s ++ pre))
             /\ fetch_calls pre = [] /\ completion_calls pre = []
             /\ openai_calls pre = []).
  { unfold main, bind. rewrite resolve_urls_run.
    destruct argv as [| prog [| url more]].
    - exists default_urls. eexists. repeat split.
    - exists default_urls. eexists. repeat split.
    - exists [url], []. rewrite app_nil_r, state_eta. repeat split. }
  destruct Hres as (urls & pre & Hmain & Hf & Hc & Ho).
  destruct (run_shape urls (mkState (globals s) (world s) (trace s ++ pre)))
    as (post & Ht & Hpost).
  cbn [trace globals] in Ht.
  exists pre, post. rewrite Hmain, Ht.
  split; [rewrite <- app_assoc; reflexivity|].
  repeat (split; [assumption|]).
  rewrite !openai_calls_app, Ho. cbn [app].
  change (EvOpenAI (OLLAMA_BASE_URL (globals s)) "ollama" :: post)
    with ([EvOpenAI (OLLAMA_BASE_URL (globals s)) "ollama"] ++ post)%list.
  rewrite openai_calls_app, Hpost, app_nil_r. reflexivity.
Qed.

(** X2: the loop sends one chat-completion request for each URL whose fetch
    returned, in the order of the URLs, with the configured model and the
    two messages built from the content fetched for that URL; for a URL
    whose fetch failed it sends nothing.  Every request goes to the client
    the loop was given, and the loop constructs no client. *)
Theorem one_request_per_fetched_page (client : Client) (urls : list string)
    (s : State) :
  let g := globals s in
  let log := combine urls (attempts client urls s) in
  let s' := snd (for_each urls (summarize_one client) s) in
  completion_calls (trace s')
  = (completion_calls (trace s) ++ flat_map (turn_request g) log)%list
  /\ clients_used (trace s')
     = (clients_used (trace s)
        ++ map (fun _ => client) (flat_map (turn_request g) log))%list
  /\ openai_calls (trace s') = openai_calls (trace s)
  /\ List.length (flat_map (turn_request g) log) <= List.length urls.
Proof.
  cbv zeta.
  destruct (for_each_run client urls s) as (_ & Ht & _).
  destruct (turns_projections (globals s) client
              (combine urls (attempts client urls s))) as (Ho & Hc & Hu).
  rewrite Ht, completion_calls_app, clients_used_app, openai_calls_app.
  rewrite Ho, Hc, Hu, app_nil_r. repeat split.
  generalize (attempts client urls s). generalize (globals s).
  clear. intros g turns. revert turns.
  induction urls as [| url rest IH]; intros [| a turns]; cbn; try lia.
  rewrite length_app. specialize (IH turns).
  unfold turn_request at 1. cbn [snd].
  destruct (fetched a); cbn [List.length]; lia.
Qed.

(** X3: when a summarization ends with something the handler of line 135
    does not catch (an exception that is not an [Exception], or
    [SystemExit]), the run stops there: [main] ends with that very outcome,
    the URLs after it are never fetched, no failure line is printed for it
    and the closing lines are not printed. *)
Theorem uncaught_outcome_stops_the_run (urls : list string) (K : nat)
    (url : string) (s : State) (client : Client) (s1 : State) (a : Attempt) :
  connect s = (Return client, s1) ->
  nth_error urls K = Some url ->
  nth_error (attempts client urls s1) K = Some a ->
  recovered (result a) = false ->
  let turns := attempts client urls s1 in
  let s' := snd (run urls s) in
  fst (run urls s) = and_then (result a) (fun _ => Return tt)
  /\ fst (run urls s) <> Return tt
  /\ List.length turns = S K
  /\ fetch_calls (trace s') = (fetch_calls (trace s) ++ firstn (S K) urls)%list
  /\ trace s'
     = (trace s1
        ++ flat_map (turn_events (globals s) client) (combine urls turns))%list
  /\ failure_report url (result a) = []
  /\ success_report url (result a) = [].
Proof.
  intros Hc Hu Ha Hrec. cbv zeta.
  destruct (attempts_stop client urls s1 K a Ha Hrec) as [Hlen Hout].
  destruct (connect_returns s client s1 Hc) as (Hg & _ & _).
  pose proof (for_each_outcome client urls s1) as Hfor.
  destruct (for_each_run client urls s1) as (_ & Ht & _).
  rewrite (run_fetch_calls urls s client s1 Hc), Hlen.
  rewrite (run_connected urls s client s1 Hc).
  destruct (for_each urls (summarize_one client) s1) as [r s2].
  cbn [fst snd] in *. rewrite Hout in Hfor. subst r.
  unfold failure_report, success_report.
  destruct (result a) as [summary | e | code]; cbn [recovered] in Hrec;
    try discriminate; cbn [and_then fst snd]; rewrite ?Hrec, <- Hg;
    repeat split; try assumption; discriminate.
Qed.

(** X4: however many summarizations fail with an exception, as long as each
    is one the handler catches, the run fetches every URL in order, prints
    one failure line for each failed URL (with its URL and the text of its
    exception) in the order of the URLs, ends with the closing lines, and
    [main] returns: the exit status is 0 even when every URL failed. *)
Theorem every_failure_is_reported (urls : list string) (s : State)
    (client : Client) (s1 : State) :
  connect s = (Return client, s1) ->
  forallb (fun a => recovered (result a)) (attempts client urls s1) = true ->
  let log := combine urls (attempts client urls s1) in
  let s' := snd (run urls s) in
  fst (run urls s) = Return tt
  /\ exit_status (fst (run urls s)) = 0%Z
  /\ fetch_calls (trace s') = (fetch_calls (trace s) ++ urls)%list
  /\ trace s'
     = (trace s1 ++ flat_map (turn_events (globals s) client) log
        ++ closing_events)%list
  /\ failure_reports log
     = map (fun failed : string * PyExc =>
              EvPrint (failure_line (fst failed) (snd failed)))
           (failed_turns log)
  /\ map fst log = urls.
Proof.
  intros Hc Hall. cbv zeta.
  destruct (run_recovered urls s client s1 Hc Hall) as (Hr & Hlen & Ht).
  destruct (connect_returns s client s1 Hc) as (Hg & _ & _).
  rewrite Hr.
  split; [reflexivity|]. split; [reflexivity|].
  split; [rewrite (run_fetch_calls urls s client s1 Hc), Hlen, firstn_all;
          reflexivity|].
  split; [rewrite Ht, Hg; reflexivity|].
  split; [apply failure_reports_failed|].
  rewrite map_fst_combine_prefix, Hlen. apply firstn_all.
Qed.

(** X5: when the construction of the client ends with something the
    handler of line 119 does not catch (an exception that is not an
    [Exception], or [SystemExit]), [main] ends with that very outcome: the
    remediation lines are not printed, the greeting lines are not printed,
    and no page is fetched and no request sent. *)
Theorem uncaught_connection_outcome (argv : list string) (s : State)
    (r : Outcome Client) (w : World) :
  OpenAI (OLLAMA_BASE_URL (globals s)) "ollama" (world s) = (r, w) ->
  recovered r = false ->
  let s' := snd (main argv s) in
  fst (main argv s) = and_then r (fun _ => Return tt)
  /\ fst (main argv s) <> Return tt
  /\ trace s'
     = (trace (snd (resolve_urls argv s))
        ++ [EvOpenAI (OLLAMA_BASE_URL (globals s)) "ollama"])%list
  /\ world s' = w
  /\ fetch_calls (trace s') = fetch_calls (trace s)
  /\ completion_calls (trace s') = completion_calls (trace s).
Proof.
  intros Hopen Hrec. cbv zeta.
  destruct (resolve_urls_quiet argv s) as (urls & evs & Hres & Hf & Hc).
  assert (Hmain : main argv s
                  = (and_then r (fun _ => Return tt),
                     mkState (globals s) w
                       ((trace s ++ evs)
                        ++ [EvOpenAI (OLLAMA_BASE_URL (globals s))
                              "ollama"]))).
  { unfold main, bind at 1. rewrite Hres.
    unfold run, bind. rewrite connect_run. cbv zeta.
    cbn [globals world trace]. rewrite Hopen.
    destruct r as [client | e | code]; cbn [recovered] in Hrec;
      try discriminate; rewrite ?Hrec; reflexivity. }
  rewrite Hmain, Hres. cbn [fst snd trace world].
  split; [reflexivity|]. split.
  { destruct r as [client | e | code]; cbn [recovered] in Hrec;
      discriminate. }
  split; [reflexivity|]. split; [reflexivity|]. split.
  - rewrite !fetch_calls_app, Hf. cbn. rewrite !app_nil_r. reflexivity.
  - rewrite !completion_calls_app, Hc. cbn. rewrite !app_nil_r. reflexivity.
Qed.

(** X6: the list of URLs of [main] is never empty and reading [sys.argv[1]]
    never raises, whatever the command line is (an empty [sys.argv]
    included): the resolution returns the one-element list of the argument
    at index 1 when there is one and the default list otherwise.  So once
    the client is constructed, a run always fetches at least one page, and
    the first page fetched is that argument or the first default URL. *)
Theorem first_attempt_always_made (argv : list string) (s : State)
    (client : Client) (s1 : State) :
  connect (snd (resolve_urls argv s)) = (Return client, s1) ->
  fst (resolve_urls argv s)
  = Return match nth_error argv 1 with
           | Some url => [url]
           | None => default_urls
           end
  /\ exists others,
       fetch_calls (trace (snd (main argv s)))
       = (fetch_calls (trace s) ++ first_url argv :: others)%list.
Proof.
  intros Hc.
  assert (Hres : exists url others,
             resolve_urls argv s
             = (Return (url :: others), snd (resolve_urls argv s))
             /\ url = first_url argv
             /\ match nth_error argv 1 with
                | Some u => [u]
                | None => default_urls
                end = url :: others
             /\ fetch_calls (trace (snd (resolve_urls argv s)))
                = fetch_calls (trace s)).
  { rewrite resolve_urls_run. unfold first_url, default_urls.
    destruct argv as [| prog [| url more]]; cbn [nth_error snd].
    - do 2 eexists. repeat split.
      unfold emit. cbn [trace]. rewrite fetch_calls_app. apply app_nil_r.
    - do 2 eexists. repeat split.
      unfold emit. cbn [trace]. rewrite fetch_calls_app. apply app_nil_r.
    - do 2 eexists. repeat split. }
  destruct Hres as (url & others & Hres & Hurl & Hlist & Hf).
  split; [rewrite Hres, Hlist; reflexivity|].
  assert (Hmain : main argv s = run (url :: others) (snd (resolve_urls argv s)))
    by (unfold main, bind at 1; rewrite Hres at 1; reflexivity).
  rewrite Hmain.
  rewrite (run_fetch_calls (url :: others) _ client s1 Hc), Hf, <- Hurl.
  cbn [attempts List.length firstn]. eexists. reflexivity.
Qed.

(** X7: [create_messages] passes the page on whole: the content of the user
    message is as long as the prefix and the page together (nothing is cut
    off or escaped), and under the same globals two pages give the same
    messages only if they are the same page. *)
Theorem create_messages_keeps_content (c1 c2 : string) (s1 s2 : State) :
  globals s1 = globals s2 ->
  fst (create_messages c1 s1) = fst (create_messages c2 s2) ->
  c1 = c2
  /\ exists system user,
       fst (create_messages c1 s1) = Return [system; user]
       /\ String.length (content user)
          = String.length (USER_PROMPT_PREFIX (globals s1))
            + String.length c1.
Proof.
  intros Hg Heq. rewrite !create_messages_run in *. cbn [fst] in *.
  rewrite Hg in Heq. unfold prompt in Heq.
  injection Heq as Heq. apply append_cancel in Heq.
  split; [assumption|].
  do 2 eexists. split; [reflexivity|]. cbn [content]. apply append_length.
Qed.

(** X8: the whole path of one URL given on the command line: when the
    client is constructed, the fetch returns and the response has a first
    choice, [main] prints, after the separator and the two progress lines,
    the header naming the URL, then the content of that choice exactly as
    the endpoint returned it, then an empty line and the closing lines, and
    returns.  The request it sent holds the fetched page. *)
Theorem summary_printed_under_its_url (prog url : string) (s : State)
    (client : Client) (s1 : State) (website_content : string)
    (w1 w2 : World) (response : Response.ChatCompletion)
    (choice : Response.Choice) (others : list Response.Choice) :
  connect s = (Return client, s1) ->
  fetch_website_contents url (world s1) = (Return website_content, w1) ->
  chat_completions_create client (MODEL (globals s))
    (prompt (globals s) website_content) w1 = (Return response, w2) ->
  Response.choices response = choice :: others ->
  main [prog; url] s
  = (Return tt,
     mkState (globals s) w2
       (trace s1
        ++ [ EvPrint (str_repeat "=" 70);
             EvPrint ("Fetching website content from: " ++ url);
             EvFetch url;
             EvPrint ("Generating summary using " ++ MODEL (globals s)
                      ++ "...");
             EvCreate client (MODEL (globals s))
               (prompt (globals s) website_content);
             EvPrint (nl ++ "📄 Summary of " ++ url ++ ":" ++ nl);
             EvPrint (py_str (Response.content (Response.message choice)));
             EvPrint "" ]
        ++ closing_events)).
Proof.
  intros Hc Hfetch Hcreate Hchoices.
  destruct (connect_returns s client s1 Hc) as (Hg & _ & _).
  assert (Hmain : main [prog; url] s = run [url] s) by reflexivity.
  rewrite Hmain, (run_connected [url] s client s1 Hc).
  cbn [for_each]. unfold bind, ret.
  pose proof (summarize_one_run client url s1) as Hone. cbv zeta in Hone.
  pose proof (summarize_website_run url client s1) as Hrun.
  cbv zeta in Hrun. rewrite Hg, Hfetch in Hrun.
  cbn [fst snd and_then] in Hrun. rewrite Hcreate in Hrun.
  cbn [fst snd and_then] in Hrun.
  unfold first_choice_content in Hrun. rewrite Hchoices in Hrun.
  unfold attempt, turn_events in Hone. rewrite Hrun, Hfetch in Hone.
  cbn [fst snd result fetched recovered success_report failure_report
       summarize_events world] in Hone.
  rewrite Hone, Hg. cbn [globals world trace].
  rewrite app_nil_r, <- !app_assoc. reflexivity.
Qed.

(** X9: a run without a URL argument (an empty [sys.argv] included) first
    prints the notice of line 111, then constructs the client, and, when
    every turn is recovered, fetches exactly the three default URLs in the
    order of the list and returns, whether their summarizations succeed or
    fail. *)
Theorem default_run (argv : list string) (s : State) (client : Client)
    (s1 : State) :
  List.length argv <= 1 ->
  connect (emit (EvPrint ("No URL provided. Summarizing default websites..."
                          ++ nl)) s)
  = (Return client, s1) ->
  forallb (fun a => recovered (result a)) (attempts client default_urls s1)
  = true ->
  fst (main argv s) = Return tt
  /\ fetch_calls (trace (snd (main argv s)))
     = (fetch_calls (trace s)
        ++ [ "https://edwarddonner.com"; "https://anthropic.com";
             "https://cnn.com" ])%list
  /\ exists rest,
       trace (snd (main argv s))
       = (trace s
          ++ EvPrint ("No URL provided. Summarizing default websites..."
                      ++ nl)
          :: EvOpenAI (OLLAMA_BASE_URL (globals s)) "ollama" :: rest)%list.
Proof.
  intros Hlen Hc Hall.
  set (notice := EvPrint _) in *.
  assert (Hmain : main argv s = run default_urls (emit notice s)).
  { unfold main, bind at 1. rewrite resolve_urls_run.
    destruct argv as [| prog [| url more]]; try reflexivity.
    cbn [List.length] in Hlen. lia. }
  rewrite Hmain.
  destruct (run_recovered default_urls (emit notice s) client s1 Hc Hall)
    as (Hr & Hn & _).
  split; [assumption|]. split.
  - rewrite (run_fetch_calls default_urls (emit notice s) client s1 Hc).
    rewrite Hn, firstn_all. unfold emit. cbn [trace].
    rewrite fetch_calls_app. cbn. rewrite app_nil_r. reflexivity.
  - destruct (run_shape default_urls (emit notice s)) as (post & Ht & _).
    exists post. rewrite Ht. unfold emit. cbn [trace globals].
    rewrite <- app_assoc. reflexivity.
Qed.

End Extras.

(** ** The claims on the test doubles *)

#[local] Existing Instance Demo.externals.

Module DemoRuns.

Import Demo.

Lemma connect_up : connect up = (Return client, connected).
Proof. reflexivity. Qed.

Lemma attempts_three :
  attempts client three connected = [hello_page; down_page; hello_page].
Proof. vm_compute. reflexivity. Qed.

Lemma only_the_second_fails (i : nat) (a' : Attempt) :
  nth_error (attempts client three connected) i = Some a' ->
  i <> 1 -> succeeded a' = true.
Proof.
  rewrite attempts_three.
  destruct i as [| [| [| i]]]; cbn [nth_error]; intros Hi Hne;
    try (injection Hi as <-; reflexivity);
    try (exfalso; apply Hne; reflexivity).
  destruct i; discriminate.
Qed.

End DemoRuns.

(** The round trip of one page: the fetcher returns "Hello world", the
    endpoint answers with one choice, and the run prints that answer under
    the header of the URL. *)
Example round_trip :
  main [Demo.script; "https://example.com"] Demo.up
  = (Return tt,
     mkState module_globals (Demo.mkWorld true 1)
       ([ EvOpenAI "http://localhost:11434/v1" "ollama";
          EvPrint "✓ Connected to Ollama at http://localhost:11434/v1";
          EvPrint ("✓ Using model: llama3.2" ++ nl);
          EvPrint (str_repeat "=" 70);
          EvPrint "Fetching website content from: https://example.com";
          EvFetch "https://example.com";
          EvPrint "Generating summary using llama3.2...";
          EvCreate Demo.client "llama3.2"
            (prompt module_globals "Hello world");
          EvPrint (nl ++ "📄 Summary of https://example.com:" ++ nl);
          EvPrint ("# Summary" ++ nl ++ "Hello.");
          EvPrint "" ]
        ++ closing_events)).
Proof. vm_compute. reflexivity. Qed.

Lemma create_messages_two_messages_witness :
  fst (create_messages "Hello world" Demo.up)
  = Return [ mkMessage "system" (SYSTEM_PROMPT module_globals);
             mkMessage "user"
               (USER_PROMPT_PREFIX module_globals ++ "Hello world") ].
Proof.
  exact (f_equal fst
           (proj1 (create_messages_two_messages "Hello world" Demo.up
                     eq_refl))).
Defined.

Lemma create_messages_pure_witness :
  fst (create_messages "Hello world" Demo.up)
  = fst (create_messages "Hello world" Demo.down).
Proof.
  exact (proj2 create_messages_pure "Hello world" "Hello world"
           Demo.up Demo.down eq_refl eq_refl).
Defined.

Lemma one_failure_does_not_stop_the_run_witness :
  fst (run Demo.three Demo.up) = Return tt
  /\ fetch_calls (trace (snd (run Demo.three Demo.up))) = Demo.three
  /\ failure_reports
       (combine Demo.three
          (attempts Demo.client Demo.three Demo.connected))
     = [EvPrint (failure_line "https://down.example" Demo.unreachable)].
Proof.
  pose proof (one_failure_does_not_stop_the_run
                Demo.three 1 "https://down.example" Demo.up
                Demo.client Demo.connected
                Demo.down_page Demo.unreachable
                DemoRuns.connect_up eq_refl
                (f_equal (fun l => nth_error l 1) DemoRuns.attempts_three)
                eq_refl eq_refl DemoRuns.only_the_second_fails)
    as (Hr & _ & _ & Hf & _ & Hrep & _ & _).
  split; [exact Hr|]. split; [exact Hf | exact Hrep].
Defined.

Lemma connection_failure_is_fatal_witness :
  fst (main [Demo.script] Demo.down) = Exit 1
  /\ fetch_calls (trace (snd (main [Demo.script] Demo.down))) = []
  /\ completion_calls (trace (snd (main [Demo.script] Demo.down))) = [].
Proof.
  pose proof (connection_failure_is_fatal [Demo.script] Demo.down
                Demo.refused (Demo.mkWorld false 0) eq_refl eq_refl)
    as (Hr & _ & _ & Hf & Hc).
  split; [exact Hr|]. split; [exact Hf | exact Hc].
Defined.

Lemma argument_resolution_witness :
  fetch_calls
    (trace (snd (main [Demo.script; "https://example.com"] Demo.up)))
  = ["https://example.com"].
Proof.
  exact (proj1 (proj2 (proj2 (proj2
           (argument_resolution Demo.script "https://example.com"
              Demo.up Demo.client Demo.connected
              DemoRuns.connect_up))))).
Defined.

Lemma runner_sequential_witness :
  fetch_calls (trace (snd (run Demo.three Demo.up))) = Demo.three
  /\ map fst (combine Demo.three
                (attempts Demo.client Demo.three Demo.connected))
     = Demo.three.
Proof.
  pose proof (runner_sequential Demo.three Demo.up Demo.client
                Demo.connected DemoRuns.connect_up)
    as (_ & _ & _ & _ & Hall & _).
  destruct (Hall ltac:(vm_compute; reflexivity)) as (_ & Hlog & Hf).
  split; [exact Hf | exact Hlog].
Defined.

Lemma unguarded_first_choice_witness :
  fst (summarize_website "https://example.com" Demo.client
         Demo.connected)
  = Return (Some ("# Summary" ++ nl ++ "Hello."))
  /\ fst (summarize_website "https://empty.example" Demo.client
            Demo.connected)
     = Raise IndexError.
Proof.
  split.
  - refine (proj1 (unguarded_first_choice "https://example.com"
                     Demo.client Demo.connected "Hello world"
                     (Demo.mkWorld true 0) (Demo.mkWorld true 1)
                     (Response.mkCompletion
                        [Response.mkChoice
                           (Response.mkMsg
                              (Some ("# Summary" ++ nl ++ "Hello.")))])
                     eq_refl eq_refl) _ [] eq_refl).
  - refine (proj1 (proj2 (unguarded_first_choice "https://empty.example"
                            Demo.client Demo.connected ""
                            (Demo.mkWorld true 0) (Demo.mkWorld true 1)
                            (Response.mkCompletion [])
                            eq_refl eq_refl) eq_refl)).
Defined.


(** ** The further properties on the test doubles *)

Lemma uncaught_outcome_stops_the_run_witness :
  fst (run (X := Interrupted.externals) Interrupted.pages Interrupted.ready)
  = Raise Interrupted.KeyboardInterrupt
  /\ fetch_calls
       (trace (snd (run (X := Interrupted.externals) Interrupted.pages
                      Interrupted.ready)))
     = ["https://example.com"; "https://slow.example"].
Proof.
  pose proof (uncaught_outcome_stops_the_run
                (X := Interrupted.externals)
                Interrupted.pages 1 "https://slow.example"
                Interrupted.ready tt Interrupted.connected
                Interrupted.interrupted_page
                eq_refl eq_refl eq_refl eq_refl)
    as (Hr & _ & _ & Hf & _).
  split; [exact Hr | exact Hf].
Defined.

Lemma every_failure_is_reported_witness :
  fst (run ["https://down.example"; "https://down.example"] Demo.up)
  = Return tt
  /\ fetch_calls
       (trace (snd (run ["https://down.example"; "https://down.example"]
                      Demo.up)))
     = ["https://down.example"; "https://down.example"].
Proof.
  pose proof (every_failure_is_reported
                ["https://down.example"; "https://down.example"]
                Demo.up Demo.client Demo.connected
                DemoRuns.connect_up eq_refl)
    as (Hr & _ & Hf & _).
  split; [exact Hr | exact Hf].
Defined.

Lemma uncaught_connection_outcome_witness :
  fst (main (X := Interrupted.externals) [Demo.script] Interrupted.early)
  = Raise Interrupted.KeyboardInterrupt
  /\ fetch_calls
       (trace (snd (main (X := Interrupted.externals) [Demo.script]
                      Interrupted.early)))
     = [].
Proof.
  pose proof (uncaught_connection_outcome
                (X := Interrupted.externals)
                [Demo.script] Interrupted.early
                (Raise Interrupted.KeyboardInterrupt) false
                eq_refl eq_refl)
    as (Hr & _ & _ & _ & Hf & _).
  split; [exact Hr | exact Hf].
Defined.

Lemma first_attempt_always_made_witness :
  exists others,
    fetch_calls (trace (snd (main [] Demo.up)))
    = "https://edwarddonner.com" :: others.
Proof.
  exact (proj2 (first_attempt_always_made [] Demo.up Demo.client
                  (snd (connect (snd (resolve_urls [] Demo.up))))
                  eq_refl)).
Defined.

Lemma create_messages_keeps_content_witness :
  exists system user,
    fst (create_messages "Hello world" Demo.up) = Return [system; user]
    /\ String.length (content user)
       = String.length (USER_PROMPT_PREFIX module_globals) + 11.
Proof.
  exact (proj2 (create_messages_keeps_content "Hello world" "Hello world"
                  Demo.up Demo.down eq_refl eq_refl)).
Defined.

Lemma summary_printed_under_its_url_witness :
  fst (main [Demo.script; "https://example.com"] Demo.up) = Return tt
  /\ world (snd (main [Demo.script; "https://example.com"] Demo.up))
     = Demo.mkWorld true 1.
Proof.
  pose proof (summary_printed_under_its_url
                Demo.script "https://example.com" Demo.up
                Demo.client Demo.connected "Hello world"
                (Demo.mkWorld true 0) (Demo.mkWorld true 1)
                (Response.mkCompletion
                   [Response.mkChoice
                      (Response.mkMsg
                         (Some ("# Summary" ++ nl ++ "Hello.")))])
                (Response.mkChoice
                   (Response.mkMsg (Some ("# Summary" ++ nl ++ "Hello."))))
                [] DemoRuns.connect_up eq_refl eq_refl eq_refl)
    as H.
  split; [exact (f_equal fst H) | exact (f_equal (fun p => world (snd p)) H)].
Defined.

Lemma default_run_witness :
  fst (main [Demo.script] Demo.up) = Return tt
  /\ fetch_calls (trace (snd (main [Demo.script] Demo.up)))
     = [ "https://edwarddonner.com"; "https://anthropic.com";
         "https://cnn.com" ].
Proof.
  pose proof (default_run [Demo.script] Demo.up Demo.client
                (snd (connect
                        (emit (EvPrint
                                 ("No URL provided. Summarizing default websites..."
                                  ++ nl)) Demo.up)))
                (le_n 1) eq_refl eq_refl)
    as (Hr & Hf & _).
  split; [exact Hr | exact Hf].
Defined.
